(** * KPodHIDDriver: the DriverKit [Start] override

    Shallow embedding of [src/KPodHIDDriver/KPodHIDDriver.cpp]:

<<
    kern_return_t
    IMPL(KPodHIDDriver, Start)
    {
        kern_return_t ret;
        ret = Start(provider, SUPERDISPATCH);
        os_log(OS_LOG_DEFAULT, "Hello World");
        return ret;
    }
>>

    The method body is written as a program of a small command monad whose
    two commands are the two outbound effects of the source: the call into
    the superclass [Start] (through the [SUPERDISPATCH] token) and
    [os_log].  The superclass is opaque to this repository, so the
    interpreter takes its behaviour as an argument: any function from the
    provider, the dispatch token and the current world to a status and a
    new world.  The interpreter threads the world (driver instance fields,
    system log, everything else) and records an observation trace. *)

From Stdlib Require Import ZArith List String.
Import ListNotations.
Open Scope string_scope.

(** ** Data *)

(** [kern_return_t] is a C [int]: a 32-bit signed status code. *)
Definition kern_return_t := Z.

Definition KERN_SUCCESS : kern_return_t := 0%Z.

(** [kIOReturnError] = 0xe00002bc, read as a signed 32-bit [int]. *)
Definition kIOReturnError : kern_return_t := (0xe00002bc - 2 ^ 32)%Z.

(** [IOService * provider]: a pointer, [0] being the null pointer. *)
Definition IOService_ptr := N.

Definition NULL : IOService_ptr := 0%N.

(** The [SUPERDISPATCH] argument: the dispatch-completion token handed to
    the method by the runtime (a function pointer in DriverKit). *)
Definition dispatch_token := N.

(** [os_log_t]: the handle of a log object; [OS_LOG_DEFAULT] is the
    system-wide default log. *)
Inductive os_log_t := OS_LOG_DEFAULT | OS_LOG_OBJECT (id : N).

(** One record written to the system log. *)
Record log_record := mk_log_record {
  rec_log : os_log_t;
  rec_msg : string
}.

(** The world the method runs in: the instance variables of the driver
    object, the system log, and the rest of the outside world. *)
Record world (Ivars Ext : Type) := mk_world {
  ivars  : Ivars;
  syslog : list log_record;
  ext    : Ext
}.
Arguments mk_world {Ivars Ext} _ _ _.
Arguments ivars {Ivars Ext} _.
Arguments syslog {Ivars Ext} _.
Arguments ext {Ivars Ext} _.

(** Observations of one invocation, in the order they happen. *)
Inductive event :=
| EvSuperCall (provider : IOService_ptr) (d : dispatch_token)
| EvSuperDone (status : kern_return_t)
| EvLog (r : log_record)
| EvReturn (status : kern_return_t).

(** ** The command monad *)

Inductive cmd (A : Type) :=
| Ret (a : A)
| CallSuperStart (provider : IOService_ptr) (d : dispatch_token)
    (k : kern_return_t -> cmd A)
| OsLog (log : os_log_t) (msg : string) (k : unit -> cmd A).
Arguments Ret {A} _.
Arguments CallSuperStart {A} _ _ _.
Arguments OsLog {A} _ _ _.

Fixpoint bind {A B} (c : cmd A) (f : A -> cmd B) : cmd B :=
  match c with
  | Ret a => f a
  | CallSuperStart p d k => CallSuperStart p d (fun r => bind (k r) f)
  | OsLog l m k => OsLog l m (fun u => bind (k u) f)
  end.

Notation "x <- c ;; k" := (bind c (fun x => k))
  (at level 61, c at next level, right associativity).
Notation "c ;;; k" := (bind c (fun _ => k))
  (at level 61, right associativity).

Definition super_Start (provider : IOService_ptr) (d : dispatch_token)
  : cmd kern_return_t := CallSuperStart provider d Ret.

Definition os_log (log : os_log_t) (msg : string) : cmd unit :=
  OsLog log msg Ret.

(** ** The method, as written in the source *)

Definition KPodHIDDriver_Start (provider : IOService_ptr)
    (SUPERDISPATCH : dispatch_token) : cmd kern_return_t :=
  ret <- super_Start provider SUPERDISPATCH ;;
  os_log OS_LOG_DEFAULT "Hello World" ;;;
  Ret ret.

(** ** Interpretation *)

Section Run.

Context {Ivars Ext : Type}.

(** The behaviour of the superclass [Start]: a status and the world it
    leaves behind. *)
Definition superclass := IOService_ptr -> dispatch_token ->
  world Ivars Ext -> kern_return_t * world Ivars Ext.

Definition append_log (r : log_record) (w : world Ivars Ext)
  : world Ivars Ext :=
  mk_world (ivars w) (syslog w ++ [r])%list (ext w).

Fixpoint run {A} (sup : superclass) (c : cmd A) (w : world Ivars Ext)
  : A * world Ivars Ext * list event :=
  match c with
  | Ret a => (a, w, [])
  | CallSuperStart p d k =>
      let '(r, w1) := sup p d w in
      let '(a, w2, tr) := run sup (k r) w1 in
      (a, w2, EvSuperCall p d :: EvSuperDone r :: tr)
  | OsLog l m k =>
      let rec := mk_log_record l m in
      let '(a, w2, tr) := run sup (k tt) (append_log rec w) in
      (a, w2, EvLog rec :: tr)
  end.

(** One invocation of the entry point by the host: run the body and
    observe the value handed back. *)
Definition invoke_Start (sup : superclass) (provider : IOService_ptr)
    (SUPERDISPATCH : dispatch_token) (w : world Ivars Ext)
  : kern_return_t * world Ivars Ext * list event :=
  let '(r, w', tr) := run sup (KPodHIDDriver_Start provider SUPERDISPATCH) w in
  (r, w', tr ++ [EvReturn r])%list.

Definition start_status sup p d w := fst (fst (invoke_Start sup p d w)).
Definition start_world sup p d w := snd (fst (invoke_Start sup p d w)).
Definition start_trace sup p d w := snd (invoke_Start sup p d w).

(** Observation filters on a trace. *)
Definition is_log (e : event) : bool :=
  match e with EvLog _ => true | _ => false end.
Definition is_super_call (e : event) : bool :=
  match e with EvSuperCall _ _ => true | _ => false end.

Definition log_events (tr : list event) : list event := filter is_log tr.
Definition super_calls (tr : list event) : list event :=
  filter is_super_call tr.

End Run.

(** The one record the method writes. *)
Definition hello_record : log_record :=
  mk_log_record OS_LOG_DEFAULT "Hello World".

(** ** Small checks on concrete inputs *)

Definition sup_ok {Ivars Ext} : @superclass Ivars Ext :=
  fun _ _ w => (KERN_SUCCESS, w).

Definition sup_fail_logging {Ext} : @superclass nat Ext :=
  fun _ _ w => (kIOReturnError,
                mk_world (S (ivars w))
                  (syslog w ++ [mk_log_record OS_LOG_DEFAULT "super"])%list
                  (ext w)).

Example start_trace_ok :
  start_trace (@sup_ok unit unit) 7%N 3%N (mk_world tt [] tt) =
  [EvSuperCall 7%N 3%N; EvSuperDone KERN_SUCCESS; EvLog hello_record;
   EvReturn KERN_SUCCESS].
Proof. reflexivity. Qed.

Example start_world_fail :
  start_world (@sup_fail_logging unit) NULL 3%N (mk_world 0 [] tt) =
  mk_world 1 [mk_log_record OS_LOG_DEFAULT "super"; hello_record] tt.
Proof. reflexivity. Qed.

(** ** The method body, unfolded *)

Lemma KPodHIDDriver_Start_body p d :
  KPodHIDDriver_Start p d =
  CallSuperStart p d (fun ret => OsLog OS_LOG_DEFAULT "Hello World"
                                   (fun _ => Ret ret)).
Proof. reflexivity. Qed.

Section Props.

Context {Ivars Ext : Type}.
Implicit Types (sup : @superclass Ivars Ext) (w : world Ivars Ext)
  (p : IOService_ptr) (d : dispatch_token).

Lemma invoke_Start_eq sup p d w :
  invoke_Start sup p d w =
  (fst (sup p d w), append_log hello_record (snd (sup p d w)),
   [EvSuperCall p d; EvSuperDone (fst (sup p d w)); EvLog hello_record;
    EvReturn (fst (sup p d w))]).
Proof.
  unfold invoke_Start, KPodHIDDriver_Start; simpl.
  destruct (sup p d w) as [r w1]; reflexivity.
Qed.

Lemma start_trace_eq sup p d w :
  start_trace sup p d w =
  [EvSuperCall p d; EvSuperDone (fst (sup p d w)); EvLog hello_record;
   EvReturn (fst (sup p d w))].
Proof. unfold start_trace; rewrite invoke_Start_eq; reflexivity. Qed.

Lemma start_world_eq sup p d w :
  start_world sup p d w = append_log hello_record (snd (sup p d w)).
Proof. unfold start_world; rewrite invoke_Start_eq; reflexivity. Qed.

Lemma start_status_eq sup p d w :
  start_status sup p d w = fst (sup p d w).
Proof. unfold start_status; rewrite invoke_Start_eq; reflexivity. Qed.

Lemma start_log_events sup p d w :
  log_events (start_trace sup p d w) = [EvLog hello_record].
Proof. rewrite start_trace_eq; reflexivity. Qed.

End Props.

(** ** Claims *)

Section Claims.

Context {Ivars Ext : Type}.
Implicit Types (sup : @superclass Ivars Ext) (w : world Ivars Ext)
  (p : IOService_ptr) (d : dispatch_token).

(** C1: for every provider, dispatch token, superclass behaviour and world,
    the status [Start] returns is the superclass status, unmodified. *)
Theorem Start_returns_super_status sup p d w :
  start_status sup p d w = fst (sup p d w).
Proof. apply start_status_eq. Qed.

(** C2: every invocation emits exactly one log record, whatever the
    superclass returned: one log event in the trace, and the system log
    grows by exactly one record past what the superclass left. *)
Theorem Start_logs_exactly_once sup p d w :
  List.length (log_events (start_trace sup p d w)) = 1 /\
  List.length (syslog (start_world sup p d w)) =
    S (List.length (syslog (snd (sup p d w)))).
Proof.
  split.
  - rewrite start_log_events; reflexivity.
  - rewrite start_world_eq; simpl.
    rewrite length_app; simpl; rewrite PeanoNat.Nat.add_comm; reflexivity.
Qed.

(** C3: the logged record is the same for any two invocations, whatever
    their providers, dispatch tokens, superclass behaviours and worlds. *)
Theorem Start_log_content_constant sup1 sup2 p1 p2 d1 d2 w1 w2 :
  log_events (start_trace sup1 p1 d1 w1) =
  log_events (start_trace sup2 p2 d2 w2).
Proof. rewrite !start_log_events; reflexivity. Qed.

(** C4: every invocation makes exactly one call to the superclass [Start],
    with the provider and dispatch token it received. *)
Theorem Start_calls_super_once sup p d w :
  super_calls (start_trace sup p d w) = [EvSuperCall p d].
Proof. rewrite start_trace_eq; reflexivity. Qed.

(** C5: if the superclass returns [KERN_SUCCESS], [Start] returns
    [KERN_SUCCESS] with the one log record; if it returns a failure status
    [S_ERR], [Start] returns [S_ERR] with the same single log record and
    nothing else logged. *)
Theorem Start_success_and_failure sup p d w :
  (fst (sup p d w) = KERN_SUCCESS ->
   start_status sup p d w = KERN_SUCCESS /\
   log_events (start_trace sup p d w) = [EvLog hello_record]) /\
  (forall S_ERR, S_ERR <> KERN_SUCCESS -> fst (sup p d w) = S_ERR ->
   start_status sup p d w = S_ERR /\
   log_events (start_trace sup p d w) = [EvLog hello_record]).
Proof.
  split.
  - intros H; rewrite start_status_eq, start_log_events; auto.
  - intros S_ERR _ H; rewrite start_status_eq, start_log_events; auto.
Qed.

(** C6: the observations of an invocation are, in order: the superclass
    call, its completion with its status, the log record, and the return of
    that status; and the record lands in the system log after everything
    the superclass wrote there. *)
Theorem Start_super_completes_before_log sup p d w :
  start_trace sup p d w =
    [EvSuperCall p d; EvSuperDone (fst (sup p d w)); EvLog hello_record;
     EvReturn (fst (sup p d w))] /\
  syslog (start_world sup p d w) =
    (syslog (snd (sup p d w)) ++ [hello_record])%list.
Proof.
  split.
  - apply start_trace_eq.
  - rewrite start_world_eq; reflexivity.
Qed.

(** C7: apart from the superclass call, the only change to the world is
    the appended log record: the driver's instance variables and the rest
    of the world are as the superclass left them. *)
Theorem Start_frame sup p d w :
  start_world sup p d w = append_log hello_record (snd (sup p d w)) /\
  ivars (start_world sup p d w) = ivars (snd (sup p d w)) /\
  ext (start_world sup p d w) = ext (snd (sup p d w)).
Proof. rewrite start_world_eq; auto. Qed.

(** C8: the logged message is the literal "Hello World" (on the default
    log). *)
Theorem Start_logs_hello_world sup p d w :
  log_events (start_trace sup p d w) =
    [EvLog (mk_log_record OS_LOG_DEFAULT "Hello World")] /\
  rec_msg hello_record = "Hello World".
Proof. rewrite start_log_events; auto. Qed.

(** C9: the provider is not inspected: for every provider, the null one
    included, the body's first action is the superclass call with that
    provider and token, and the first observation is that call. *)
Theorem Start_no_provider_validation sup p d w :
  (exists k, KPodHIDDriver_Start p d = CallSuperStart p d k) /\
  hd_error (start_trace sup p d w) = Some (EvSuperCall p d) /\
  hd_error (start_trace sup NULL d w) = Some (EvSuperCall NULL d).
Proof.
  split; [eexists; apply KPodHIDDriver_Start_body |].
  rewrite !start_trace_eq; auto.
Qed.

(** C10: the status is never branched on: two superclass behaviours that
    leave the same world but return any two (possibly different) statuses
    give the same log output and the same final world. *)
Theorem Start_log_independent_of_status sup1 sup2 p d w :
  snd (sup1 p d w) = snd (sup2 p d w) ->
  log_events (start_trace sup1 p d w) = log_events (start_trace sup2 p d w) /\
  start_world sup1 p d w = start_world sup2 p d w.
Proof.
  intros H; rewrite !start_log_events, !start_world_eq, H; auto.
Qed.

End Claims.

(** ** Witnesses *)

Lemma Start_success_and_failure_witness :
  (fst (@sup_fail_logging unit NULL 0%N (mk_world 0 [] tt)) = kIOReturnError /\
   kIOReturnError <> KERN_SUCCESS) /\
  start_status (@sup_fail_logging unit) NULL 0%N (mk_world 0 [] tt)
    = kIOReturnError /\
  start_status (@sup_ok unit unit) 5%N 0%N (mk_world tt [] tt) = KERN_SUCCESS.
Proof.
  split; [split; [reflexivity | discriminate] |].
  split.
  - apply (proj2 (Start_success_and_failure (@sup_fail_logging unit)
             NULL 0%N (mk_world 0 [] tt)) kIOReturnError);
      [discriminate | reflexivity].
  - apply (proj1 (Start_success_and_failure (@sup_ok unit unit)
             5%N 0%N (mk_world tt [] tt))); reflexivity.
Defined.

Definition sup_err_same_world {Ivars Ext} : @superclass Ivars Ext :=
  fun _ _ w => (kIOReturnError, w).

Lemma Start_log_independent_of_status_witness :
  fst (@sup_ok unit unit 1%N 2%N (mk_world tt [] tt)) <>
    fst (@sup_err_same_world unit unit 1%N 2%N (mk_world tt [] tt)) /\
  start_world (@sup_ok unit unit) 1%N 2%N (mk_world tt [] tt) =
    start_world (@sup_err_same_world unit unit) 1%N 2%N (mk_world tt [] tt).
Proof.
  split; [discriminate |].
  apply (Start_log_independent_of_status (@sup_ok unit unit)
           (@sup_err_same_world unit unit) 1%N 2%N (mk_world tt [] tt)).
  reflexivity.
Defined.

(** ** Successive invocations *)

(** [n] invocations of [Start] in a row on a shared world (the host starts
    one driver instance per matched device; the system log is shared). *)
Fixpoint start_n {Ivars Ext} (sup : @superclass Ivars Ext)
    (p : IOService_ptr) (d : dispatch_token) (n : nat)
    (w : world Ivars Ext) : world Ivars Ext :=
  match n with
  | O => w
  | S n' => start_n sup p d n' (start_world sup p d w)
  end.

Example start_n_three :
  syslog (start_n (@sup_ok unit unit) 1%N 1%N 3 (mk_world tt [] tt)) =
  [hello_record; hello_record; hello_record].
Proof. reflexivity. Qed.


